(** * E2EESection: the end-to-end-encryption section of the security dialog

    A shallow embedding of [react/features/e2ee/components/E2EESection.js].

    The component is a React class component with two booleans of local state.
    Its methods are embedded as they are written: the static
    [getDerivedStateFromProps], the constructor, [render] (a pure function
    from [this.props] and [this.state] to an element tree) and the three event
    handlers, which read [this] and perform effects ([setState], the analytics
    call, the redux dispatch, [preventDefault]) recorded in order in a log. *)

From Stdlib Require Import Bool List String Ascii NArith ZArith Lia.
Import ListNotations.
Local Open Scope string_scope.
Local Open Scope list_scope.

(** ** JavaScript values used by the component *)

Module JS.

(** A JavaScript string is a sequence of UTF-16 code units; [length] and
    [substring] count code units. *)
Definition code_unit : Type := N.
Definition str : Type := list code_unit.

(** A string literal of the source (all of them are ASCII). *)
Definition lit (s : string) : str := map N_of_ascii (list_ascii_of_string s).

Definition length (s : str) : Z := Z.of_nat (List.length s).

(** [===] on two strings. *)
Fixpoint strict_eq (a b : str) : bool :=
  match a, b with
  | [], [] => true
  | x :: a', y :: b' => N.eqb x y && strict_eq a' b'
  | _, _ => false
  end.

(** [String.prototype.substring(indexStart, indexEnd)]: both indices are
    clamped to [0, length], and swapped when the first is the larger. *)
Definition clamp (i len : Z) : Z := Z.min (Z.max i 0) len.

Definition substring (s : str) (indexStart indexEnd : Z) : str :=
  let len := length s in
  let a := clamp indexStart len in
  let b := clamp indexEnd len in
  let from := Z.min a b in
  let to := Z.max a b in
  firstn (Z.to_nat (to - from)) (skipn (Z.to_nat from) s).

(** [String(b)] for a boolean [b]. *)
Definition String (b : bool) : str :=
  if b then lit "true" else lit "false".

End JS.

Notation "` s" := (JS.lit s) (at level 1, s at level 0, format "` s").

(** ** Props and State *)

(** [dispatch], the fourth prop, is the redux dispatch function: calling it is
    an effect, recorded in the log as [Dispatch] (below). *)
Record Props : Type := {
  _enabled : bool;
  _everyoneSupportE2EE : bool;
  t : JS.str -> JS.str
}.

Record State : Type := {
  enabled : bool;
  expand : bool
}.

(** The object given to [setState] or returned by [getDerivedStateFromProps]:
    a State with some of its keys absent. *)
Record PartialState : Type := {
  set_enabled : option bool;
  set_expand : option bool
}.

(** A class instance, as far as the methods read it: [this.props] and
    [this.state]. *)
Record Component : Type := {
  props : Props;
  state : State
}.

(** The event object a handler receives; the handlers read only [e.key]. *)
Record EventObject : Type := {
  key : JS.str
}.

(** Modelled from the spec: [createE2EEEvent] is imported from ../../analytics
    and is not among the sources; the event it builds is kept as the free term
    of its argument (the spec: a payload that encodes the new boolean value as
    a string). *)
Inductive AnalyticsEvent : Type :=
| createE2EEEvent (action : JS.str).

(** Modelled from the spec: [toggleE2EE] is imported from ../actions and is not
    among the sources; the action it builds is kept as the free term of its
    argument (the spec: an action carrying the new boolean value). *)
Inductive Action : Type :=
| toggleE2EE (enabled : bool).

(** ** Effects of the methods *)

Inductive Effect : Type :=
| SetState (partial : PartialState)
| SendAnalytics (event : AnalyticsEvent)
| Dispatch (action : Action)
| PreventDefault (e : EventObject).

(** A method runs against [this] and appends its effects to the log.  React
    batches [setState] inside an event handler, so [this.state] is the same
    throughout one handler. *)
Definition Method (A : Type) : Type :=
  Component -> list Effect -> A * list Effect.

Definition ret {A : Type} (a : A) : Method A :=
  fun _ log => (a, log).

Definition bind {A B : Type} (m : Method A) (k : A -> Method B) : Method B :=
  fun this log => let (a, log') := m this log in k a this log'.

Notation "x <- m ;; k" := (bind m (fun x => k))
  (at level 61, m at next level, right associativity).
Notation "m ;; k" := (bind m (fun _ => k))
  (at level 61, right associativity).

Definition this_state : Method State :=
  fun this log => (state this, log).

Definition perform (e : Effect) : Method unit :=
  fun _ log => (tt, log ++ [e]).

Definition setState (partial : PartialState) : Method unit :=
  perform (SetState partial).

Definition sendAnalytics (event : AnalyticsEvent) : Method unit :=
  perform (SendAnalytics event).

Definition dispatch (action : Action) : Method unit :=
  perform (Dispatch action).

Definition preventDefault (e : EventObject) : Method unit :=
  perform (PreventDefault e).

(** The log of a method run on [this] from the empty log. *)
Definition effectsOf {A : Type} (m : Method A) (this : Component) : list Effect :=
  snd (m this []).

(** ** The element tree *)

(** The bound methods a rendered element can carry as a prop. *)
Inductive Callback : Type :=
| cb_onExpand
| cb_onExpandKeyPress
| cb_onToggle.

Inductive PropValue : Type :=
| VStr (s : JS.str)
| VBool (b : bool)
| VNum (n : Z)
| VCallback (cb : Callback).

(** What a JSX expression of [render] evaluates to: [false] (which React does
    not render), a string, or an element with its props and children. *)
#[warnings="-register-all"]
Inductive Node : Type :=
| NFalse
| NText (s : JS.str)
| NElem (type : string) (attrs : list (string * PropValue)) (children : list Node).

(** [b && x] for a boolean [b]. *)
Definition js_and (b : bool) (x : Node) : Node :=
  if b then x else NFalse.

(** ** The component *)

Definition getDerivedStateFromProps (props : Props) (state : State)
  : option PartialState :=
  if negb (Bool.eqb (_enabled props) (enabled state)) then
    Some {| set_enabled := Some (_enabled props); set_expand := None |}
  else
    None.

Definition constructor (props : Props) : State :=
  {| enabled := false; expand := false |}.

Definition render (this : Component) : Node :=
  let _everyoneSupportE2EE := _everyoneSupportE2EE (props this) in
  let t := t (props this) in
  let enabled := enabled (state this) in
  let expand := expand (state this) in
  let description := t `"dialog.e2eeDescription" in
  NElem "div" [("id", VStr `"e2ee-section")]
    [ NElem "p"
        [ ("aria-live", VStr `"polite");
          ("className", VStr `"description");
          ("id", VStr `"e2ee-section-description") ]
        [ js_and expand (NText description);
          js_and (negb expand) (NText (JS.substring description 0 100));
          js_and (negb expand)
            (NElem "span"
               [ ("aria-controls", VStr `"e2ee-section-description");
                 ("aria-expanded", VBool expand);
                 ("className", VStr `"read-more");
                 ("onClick", VCallback cb_onExpand);
                 ("onKeyPress", VCallback cb_onExpandKeyPress);
                 ("role", VStr `"button");
                 ("tabIndex", VNum 0) ]
               [ NText `"... "; NText (t `"dialog.readMore") ]) ];
      js_and (negb _everyoneSupportE2EE)
        (NElem "span" [("className", VStr `"warning")]
           [ NText (t `"dialog.e2eeWarning") ]);
      NElem "div" [("className", VStr `"control-row")]
        [ NElem "label" [("htmlFor", VStr `"e2ee-section-switch")]
            [ NText (t `"dialog.e2eeLabel") ];
          NElem "Switch"
            [ ("id", VStr `"e2ee-section-switch");
              ("onValueChange", VCallback cb_onToggle);
              ("value", VBool enabled) ]
            [] ] ].

Definition _onExpand : Method unit :=
  setState {| set_enabled := None; set_expand := Some true |}.

Definition _onExpandKeyPress (e : EventObject) : Method unit :=
  if JS.strict_eq (key e) `" " || JS.strict_eq (key e) `"Enter" then
    preventDefault e ;;
    _onExpand
  else
    ret tt.

Definition _onToggle : Method unit :=
  s <- this_state ;;
  let newValue := negb (enabled s) in
  setState {| set_enabled := Some newValue; set_expand := None |} ;;
  sendAnalytics (createE2EEEvent (`"enabled." ++ JS.String newValue)) ;;
  dispatch (toggleE2EE newValue).

(** The constructor binds the three handlers to the instance; a callback
    found in the tree is called with the event object. *)
Definition bound (cb : Callback) (e : EventObject) : Method unit :=
  match cb with
  | cb_onExpand => _onExpand
  | cb_onExpandKeyPress => _onExpandKeyPress e
  | cb_onToggle => _onToggle
  end.

(** ** The lifecycle React runs the component through

    React (since 16.4) drives a class component that defines the static
    [getDerivedStateFromProps] as follows.  On mount it calls the
    constructor, then [getDerivedStateFromProps] with the props and the
    constructor's state,
    merges what it returns into the state, and calls [render].  On every
    update, whether new props or a [setState] caused it, it first merges the
    queued partial states into the state in order, then calls
    [getDerivedStateFromProps] with the next props and that state, merges what
    it returns, and calls [render].  A handler that queues no [setState]
    causes no update: instance and tree stay as they are. *)

Module React.

(** Shallow merge of a partial state into the state. *)
Definition merge (s : State) (partial : PartialState) : State :=
  {| enabled := match set_enabled partial with Some b => b | None => enabled s end;
     expand := match set_expand partial with Some b => b | None => expand s end |}.

(** The partial states queued by [setState], oldest first. *)
Fixpoint pending (log : list Effect) : list PartialState :=
  match log with
  | [] => []
  | SetState partial :: log' => partial :: pending log'
  | _ :: log' => pending log'
  end.

(** The effects that leave the component. *)
Fixpoint external (log : list Effect) : list Effect :=
  match log with
  | [] => []
  | SetState _ :: log' => external log'
  | e :: log' => e :: external log'
  end.

Definition processUpdateQueue (s : State) (queue : list PartialState) : State :=
  fold_left merge queue s.

(** A [null] from [getDerivedStateFromProps] leaves the state as it is. *)
Definition applyDerivedStateFromProps (nextProps : Props) (s : State) : State :=
  match getDerivedStateFromProps nextProps s with
  | Some partial => merge s partial
  | None => s
  end.

(** The mounted component after an event: the instance, the effects the
    event's handler sent out of the component, and the tree on display. *)
Record Rendered : Type := {
  instance : Component;
  emitted : list Effect;
  output : Node
}.

Definition renderPass (nextProps : Props) (s : State) (out : list Effect)
  : Rendered :=
  let this := {| props := nextProps;
                 state := applyDerivedStateFromProps nextProps s |} in
  {| instance := this; emitted := out; output := render this |}.

Definition mount (p : Props) : Rendered :=
  renderPass p (constructor p) [].

(** What can happen to a mounted component: the store hands it new props,
    or the user triggers a callback of the rendered tree. *)
Inductive Event : Type :=
| PropsUpdate (next : Props)
| Fire (cb : Callback) (e : EventObject).

Definition step (ev : Event) (r : Rendered) : Rendered :=
  let this := instance r in
  match ev with
  | PropsUpdate next => renderPass next (state this) []
  | Fire cb e =>
      let log := effectsOf (bound cb e) this in
      match pending log with
      | [] => {| instance := this; emitted := external log; output := output r |}
      | queue =>
          renderPass (props this) (processUpdateQueue (state this) queue)
            (external log)
      end
  end.

Fixpoint run (evs : list Event) (r : Rendered) : Rendered :=
  match evs with
  | [] => r
  | ev :: evs' => run evs' (step ev r)
  end.

End React.

(** ** Reading a rendered tree *)

Definition lookupProp (name : string) (attrs : list (string * PropValue))
  : option PropValue :=
  option_map snd (find (fun kv => String.eqb (fst kv) name) attrs).

Definition prop (name : string) (n : Node) : option PropValue :=
  match n with
  | NElem _ attrs _ => lookupProp name attrs
  | _ => None
  end.

Definition hasProp (name : string) (value : JS.str) (n : Node) : bool :=
  match prop name n with
  | Some (VStr s) => JS.strict_eq s value
  | _ => false
  end.

(** The first element of the tree, in document order, whose prop [name] is
    the string [value]. *)
Fixpoint findBy (name : string) (value : JS.str) (n : Node) : option Node :=
  match n with
  | NElem _ _ children =>
      if hasProp name value n then Some n
      else
        (fix first (l : list Node) : option Node :=
           match l with
           | [] => None
           | c :: l' =>
               match findBy name value c with
               | Some r => Some r
               | None => first l'
               end
           end) children
  | _ => None
  end.

Definition isFalse (n : Node) : bool :=
  match n with
  | NFalse => true
  | _ => false
  end.

(** The children React renders: [false] produces nothing. *)
Definition renderedChildren (n : Node) : list Node :=
  match n with
  | NElem _ _ children => filter (fun c => negb (isFalse c)) children
  | _ => []
  end.

(** The text of a tree, as the DOM's [textContent]. *)
Fixpoint textContent (n : Node) : JS.str :=
  match n with
  | NFalse => []
  | NText s => s
  | NElem _ _ children =>
      (fix all (l : list Node) : JS.str :=
         match l with
         | [] => []
         | c :: l' => textContent c ++ all l'
         end) children
  end.

Definition descriptionRegion (out : Node) : option Node :=
  findBy "id" `"e2ee-section-description" out.

Definition readMore (out : Node) : option Node :=
  findBy "className" `"read-more" out.

Definition warning (out : Node) : option Node :=
  findBy "className" `"warning" out.

(** The value the switch control displays. *)
Definition switchValue (out : Node) : option bool :=
  match findBy "id" `"e2ee-section-switch" out with
  | Some sw =>
      match prop "value" sw with
      | Some (VBool b) => Some b
      | _ => None
      end
  | None => None
  end.

(** ** The switch value as the specification words it *)

(** The value the specification expects on the switch after a run that starts
    with [shown] on display: the most recent externally supplied value, except
    after a local toggle and before the next external update, where it is the
    toggled value. *)
Fixpoint specSwitchValue (shown : bool) (evs : list React.Event) : bool :=
  match evs with
  | [] => shown
  | React.PropsUpdate next :: evs' => specSwitchValue (_enabled next) evs'
  | React.Fire cb_onToggle _ :: evs' => specSwitchValue (negb shown) evs'
  | React.Fire _ _ :: evs' => specSwitchValue shown evs'
  end.

(** The most recent externally supplied [enabled] value of a run. *)
Fixpoint lastExternal (supplied : bool) (evs : list React.Event) : bool :=
  match evs with
  | [] => supplied
  | React.PropsUpdate next :: evs' => lastExternal (_enabled next) evs'
  | React.Fire _ _ :: evs' => lastExternal supplied evs'
  end.

(** Whether an event makes the component call [_onExpand]. *)
Definition expands (ev : React.Event) : bool :=
  match ev with
  | React.Fire cb_onExpand _ => true
  | React.Fire cb_onExpandKeyPress e =>
      JS.strict_eq (key e) `" " || JS.strict_eq (key e) `"Enter"
  | _ => false
  end.

(** ** Sample inputs *)

(** The English strings of the four keys the component asks for. *)
Definition english (k : JS.str) : JS.str :=
  if JS.strict_eq k `"dialog.e2eeDescription" then
    `"End-to-End Encryption is currently EXPERIMENTAL. Please keep in mind that turning on end-to-end encryption will effectively disable server-side provided services such as: recording, live streaming and phone participation."
  else if JS.strict_eq k `"dialog.readMore" then `"more"
  else if JS.strict_eq k `"dialog.e2eeWarning" then
    `"WARNING: Not all participants in this meeting seem to have support for End-to-End encryption."
  else if JS.strict_eq k `"dialog.e2eeLabel" then `"Enable End-to-End Encryption"
  else k.

(** A translation with a description shorter than the cut. *)
Definition terse (k : JS.str) : JS.str :=
  if JS.strict_eq k `"dialog.e2eeDescription" then `"Encrypts the call."
  else english k.

Definition propsOff : Props :=
  {| _enabled := false; _everyoneSupportE2EE := true; t := english |}.

Definition propsOn : Props :=
  {| _enabled := true; _everyoneSupportE2EE := false; t := english |}.

Definition click : EventObject := {| key := [] |}.
Definition pressEnter : EventObject := {| key := `"Enter" |}.
Definition pressSpace : EventObject := {| key := `" " |}.
Definition pressTab : EventObject := {| key := `"Tab" |}.

(** ** The redux state and [mapStateToProps] *)

(** The JavaScript values a redux state is made of, as far as
    [mapStateToProps] can tell them apart: [undefined], [null], a boolean, or
    an object, a list of own properties with the most recent first. *)
#[warnings="-register-all"]
Inductive Value : Type :=
| Undefined
| Null
| Boolean (b : bool)
| Object (fields : list (JS.str * Value)).

(** A completion: a value, or a thrown [TypeError]. *)
Inductive Completion (A : Type) : Type :=
| Normal (a : A)
| TypeError.
Arguments Normal {A} a.
Arguments TypeError {A}.

(** The own property [k] of an object; [undefined] when there is none. *)
Fixpoint getOwn (k : JS.str) (fields : list (JS.str * Value)) : Value :=
  match fields with
  | [] => Undefined
  | (k', v) :: rest => if JS.strict_eq k' k then v else getOwn k rest
  end.

(** [v[k]], and each property read of a destructuring [const { k } = v]:
    [undefined] and [null] throw, a boolean has no such property. *)
Definition getProperty (v : Value) (k : JS.str) : Completion Value :=
  match v with
  | Undefined | Null => TypeError
  | Boolean _ => Normal Undefined
  | Object fields => Normal (getOwn k fields)
  end.

Definition mapStateToProps (state : Value) : Completion Value :=
  match getProperty state `"features/e2ee" with
  | TypeError => TypeError
  | Normal slice =>
      match getProperty slice `"enabled",
            getProperty slice `"everyoneSupportE2EE" with
      | Normal enabled, Normal everyoneSupportE2EE =>
          Normal (Object [ (`"_enabled", enabled);
                           (`"_everyoneSupportE2EE", everyoneSupportE2EE) ])
      | _, _ => TypeError
      end
  end.

Definition asBoolean (v : Value) : option bool :=
  match v with
  | Boolean b => Some b
  | _ => None
  end.

(** The default export, [translate(connect(mapStateToProps)(E2EESection))]:
    [connect] hands the component the properties of the object
    [mapStateToProps] returns for the store's state, [translate] adds [t].
    The component's [Props] are typed: both flags are booleans; a store that
    gives anything else gives no [Props]. *)
Definition connectedProps (t : JS.str -> JS.str) (state : Value) : option Props :=
  match mapStateToProps state with
  | Normal (Object mapped) =>
      match asBoolean (getOwn `"_enabled" mapped),
            asBoolean (getOwn `"_everyoneSupportE2EE" mapped) with
      | Some a, Some b =>
          Some {| _enabled := a; _everyoneSupportE2EE := b; t := t |}
      | _, _ => None
      end
  | _ => None
  end.

(** ** More readings of a run and of a tree *)

(** The props the component holds after a run. *)
Fixpoint lastProps (p : Props) (evs : list React.Event) : Props :=
  match evs with
  | [] => p
  | React.PropsUpdate next :: evs' => lastProps next evs'
  | React.Fire _ _ :: evs' => lastProps p evs'
  end.

Definition callbacksOf (attrs : list (string * PropValue)) : list Callback :=
  flat_map (fun kv => match snd kv with
                      | VCallback cb => [cb]
                      | _ => []
                      end) attrs.

(** The callbacks a tree offers, in document order. *)
Fixpoint callbacks (n : Node) : list Callback :=
  match n with
  | NElem _ attrs children =>
      callbacksOf attrs
      ++ (fix all (l : list Node) : list Callback :=
            match l with
            | [] => []
            | c :: l' => callbacks c ++ all l'
            end) children
  | _ => []
  end.

(** A store with the e2ee slice among others. *)
Definition sampleStore : Value :=
  Object [ (`"features/base/conference", Object [(`"locked", Boolean false)]);
           (`"features/e2ee",
            Object [ (`"enabled", Boolean true);
                     (`"everyoneSupportE2EE", Boolean false) ]) ].

(** * Properties *)

(** ** JavaScript strings *)

Lemma strict_eq_refl (a : JS.str) : JS.strict_eq a a = true.
Proof.
  induction a as [|x a IH]; simpl; [reflexivity|].
  now rewrite N.eqb_refl, IH.
Qed.

Lemma strict_eq_true (a b : JS.str) : JS.strict_eq a b = true <-> a = b.
Proof.
  split; [|intros ->; apply strict_eq_refl].
  revert b; induction a as [|x a IH]; intros [|y b]; simpl; try discriminate; auto.
  intros H. apply andb_true_iff in H as [Hx Hab].
  apply N.eqb_eq in Hx. f_equal; auto.
Qed.

Lemma strict_eq_false (a b : JS.str) : JS.strict_eq a b = false <-> a <> b.
Proof.
  rewrite <- strict_eq_true. destruct (JS.strict_eq a b); split; congruence.
Qed.

(** [s.substring(0, 100)] is the first 100 code units of [s]. *)
Lemma substring_0_100 (s : JS.str) : JS.substring s 0 100 = firstn 100 s.
Proof.
  unfold JS.substring, JS.clamp, JS.length.
  set (len := Z.of_nat (List.length s)).
  assert (Hlen : (0 <= len)%Z) by (subst len; lia).
  replace (Z.min (Z.min (Z.max 0 0) len) (Z.min (Z.max 100 0) len)) with 0%Z by lia.
  replace (Z.max (Z.min (Z.max 0 0) len) (Z.min (Z.max 100 0) len))
    with (Z.min 100 len) by lia.
  rewrite Z.sub_0_r. change (skipn (Z.to_nat 0) s) with s.
  destruct (Z_le_gt_dec 100 len) as [Hge|Hlt].
  - now rewrite Z.min_l by lia.
  - rewrite Z.min_r by lia. subst len. rewrite Nat2Z.id.
    rewrite firstn_all. symmetry. apply firstn_all2. lia.
Qed.

(** A string of at most 100 code units is its own [substring(0, 100)]. *)
Lemma substring_short (s : JS.str) :
  (JS.length s <= 100)%Z -> JS.substring s 0 100 = s.
Proof.
  intros H. rewrite substring_0_100. apply firstn_all2.
  unfold JS.length in H. lia.
Qed.

(** ** The log of each handler *)

Lemma onExpand_effects (this : Component) :
  effectsOf _onExpand this
  = [SetState {| set_enabled := None; set_expand := Some true |}].
Proof. reflexivity. Qed.

Lemma onToggle_effects (this : Component) :
  effectsOf _onToggle this
  = [ SetState {| set_enabled := Some (negb (enabled (state this)));
                  set_expand := None |};
      SendAnalytics
        (createE2EEEvent (`"enabled." ++ JS.String (negb (enabled (state this)))));
      Dispatch (toggleE2EE (negb (enabled (state this)))) ].
Proof. reflexivity. Qed.

Lemma onExpandKeyPress_effects (e : EventObject) (this : Component) :
  effectsOf (_onExpandKeyPress e) this
  = if JS.strict_eq (key e) `" " || JS.strict_eq (key e) `"Enter"
    then [PreventDefault e;
          SetState {| set_enabled := None; set_expand := Some true |}]
    else [].
Proof.
  unfold _onExpandKeyPress.
  destruct (JS.strict_eq (key e) `" " || JS.strict_eq (key e) `"Enter");
    reflexivity.
Qed.

(** ** Derivation and construction *)

(** C2: the derivation step compares the external [_enabled] with the local
    [enabled]: when they differ it returns the update that overwrites the
    local [enabled] with the external value (and nothing else); when they are
    equal it returns no update and the state stays as it is. *)
Theorem getDerivedStateFromProps_reconciles (p : Props) (s : State) :
  (_enabled p <> enabled s ->
   getDerivedStateFromProps p s
   = Some {| set_enabled := Some (_enabled p); set_expand := None |}
   /\ React.applyDerivedStateFromProps p s
      = {| enabled := _enabled p; expand := expand s |})
  /\ (_enabled p = enabled s ->
      getDerivedStateFromProps p s = None
      /\ React.applyDerivedStateFromProps p s = s).
Proof.
  unfold React.applyDerivedStateFromProps, getDerivedStateFromProps.
  destruct (Bool.eqb (_enabled p) (enabled s)) eqn:E; simpl.
  - apply eqb_prop in E. split; [congruence | auto].
  - apply eqb_false_iff in E. split; [auto | congruence].
Qed.

Lemma getDerivedStateFromProps_reconciles_witness :
  (getDerivedStateFromProps propsOn {| enabled := false; expand := true |}
   = Some {| set_enabled := Some true; set_expand := None |}
   /\ React.applyDerivedStateFromProps propsOn {| enabled := false; expand := true |}
      = {| enabled := true; expand := true |})
  /\ (getDerivedStateFromProps propsOff {| enabled := false; expand := true |} = None
      /\ React.applyDerivedStateFromProps propsOff {| enabled := false; expand := true |}
         = {| enabled := false; expand := true |}).
Proof.
  split.
  - apply (getDerivedStateFromProps_reconciles propsOn
             {| enabled := false; expand := true |}).
    simpl. discriminate.
  - apply (getDerivedStateFromProps_reconciles propsOff
             {| enabled := false; expand := true |}).
    reflexivity.
Defined.

(** C8: whatever the props, the constructor leaves the local state at
    [{enabled: false, expand: false}]; the first render pass then sets
    [enabled] to the external value and leaves [expand] false. *)
Theorem constructor_state_then_first_pass (p : Props) :
  constructor p = {| enabled := false; expand := false |}
  /\ state (React.instance (React.mount p))
     = {| enabled := _enabled p; expand := false |}.
Proof.
  split; [reflexivity|].
  unfold React.mount, React.renderPass; simpl.
  unfold React.applyDerivedStateFromProps, getDerivedStateFromProps; simpl.
  destruct (_enabled p); reflexivity.
Qed.

(** ** Rendering *)

(** The description region of a rendered tree, whatever the state. *)
Lemma descriptionRegion_render (this : Component) :
  descriptionRegion (render this)
  = Some
      (NElem "p"
         [ ("aria-live", VStr `"polite");
           ("className", VStr `"description");
           ("id", VStr `"e2ee-section-description") ]
         [ js_and (expand (state this))
             (NText (t (props this) `"dialog.e2eeDescription"));
           js_and (negb (expand (state this)))
             (NText (JS.substring (t (props this) `"dialog.e2eeDescription") 0 100));
           js_and (negb (expand (state this)))
             (NElem "span"
                [ ("aria-controls", VStr `"e2ee-section-description");
                  ("aria-expanded", VBool (expand (state this)));
                  ("className", VStr `"read-more");
                  ("onClick", VCallback cb_onExpand);
                  ("onKeyPress", VCallback cb_onExpandKeyPress);
                  ("role", VStr `"button");
                  ("tabIndex", VNum 0) ]
                [ NText `"... "; NText (t (props this) `"dialog.readMore") ]) ]).
Proof. reflexivity. Qed.

Lemma switchValue_render (this : Component) :
  switchValue (render this) = Some (enabled (state this)).
Proof.
  destruct this as [p [en ex]].
  destruct ex, (_everyoneSupportE2EE p) eqn:E;
    unfold switchValue, render; simpl; rewrite E; reflexivity.
Qed.

(** The "read more" element is in the tree exactly while [expand] is false. *)
Lemma readMore_render (this : Component) :
  readMore (render this)
  = if expand (state this) then None
    else Some
           (NElem "span"
              [ ("aria-controls", VStr `"e2ee-section-description");
                ("aria-expanded", VBool false);
                ("className", VStr `"read-more");
                ("onClick", VCallback cb_onExpand);
                ("onKeyPress", VCallback cb_onExpandKeyPress);
                ("role", VStr `"button");
                ("tabIndex", VNum 0) ]
              [ NText `"... "; NText (t (props this) `"dialog.readMore") ]).
Proof.
  destruct this as [p [en ex]].
  destruct ex, (_everyoneSupportE2EE p) eqn:E;
    unfold readMore, render; simpl; rewrite ?E; reflexivity.
Qed.

(** C3: with [expand] false the description region renders the first 100
    code units of the description followed by the "read more" element, which
    carries a click handler, a key-press handler, [role = button],
    [tabIndex = 0], [aria-expanded] equal to [expand] and [aria-controls]
    equal to the region's id; with [expand] true the region renders the whole
    description and there is no "read more" element in the tree. *)
Theorem description_truncated_until_expanded (this : Component) :
  let description := t (props this) `"dialog.e2eeDescription" in
  exists region,
    descriptionRegion (render this) = Some region
    /\ if expand (state this) then
         renderedChildren region = [NText description]
         /\ readMore (render this) = None
       else
         exists affordance,
           renderedChildren region = [NText (firstn 100 description); affordance]
           /\ readMore (render this) = Some affordance
           /\ prop "onClick" affordance = Some (VCallback cb_onExpand)
           /\ prop "onKeyPress" affordance = Some (VCallback cb_onExpandKeyPress)
           /\ prop "role" affordance = Some (VStr `"button")
           /\ prop "tabIndex" affordance = Some (VNum 0)
           /\ prop "aria-expanded" affordance = Some (VBool (expand (state this)))
           /\ prop "aria-controls" affordance = prop "id" region
           /\ textContent affordance = `"... " ++ t (props this) `"dialog.readMore".
Proof.
  intros description. eexists. split; [apply descriptionRegion_render|].
  fold description. destruct this as [p [en ex]]; simpl in *.
  rewrite readMore_render; simpl.
  destruct ex; simpl.
  - split; reflexivity.
  - eexists. split.
    + subst description. rewrite substring_0_100. reflexivity.
    + repeat split; try reflexivity.
      simpl. now rewrite app_nil_r.
Qed.

Lemma warning_render (this : Component) :
  warning (render this)
  = if _everyoneSupportE2EE (props this) then None
    else Some (NElem "span" [("className", VStr `"warning")]
                 [ NText (t (props this) `"dialog.e2eeWarning") ]).
Proof.
  destruct this as [p [en ex]].
  destruct ex, (_everyoneSupportE2EE p) eqn:E;
    unfold warning, render; simpl; rewrite ?E; reflexivity.
Qed.

(** C6: whatever the local state, the tree holds the warning element, with
    the translated warning as its text, exactly when [_everyoneSupportE2EE]
    is false. *)
Theorem warning_iff_not_everyone_supports (this : Component) :
  (warning (render this) <> None <-> _everyoneSupportE2EE (props this) = false)
  /\ (forall w, warning (render this) = Some w ->
                textContent w = t (props this) `"dialog.e2eeWarning").
Proof.
  rewrite warning_render.
  destruct (_everyoneSupportE2EE (props this)); split.
  - split; [congruence | discriminate].
  - discriminate.
  - split; [reflexivity | discriminate].
  - intros w [= <-]. simpl. apply app_nil_r.
Qed.

Lemma warning_iff_not_everyone_supports_witness :
  let this := {| props := propsOn; state := {| enabled := true; expand := false |} |} in
  warning (render this) <> None
  /\ (forall w, warning (render this) = Some w ->
                textContent w = english `"dialog.e2eeWarning").
Proof.
  intros this. split.
  - apply (warning_iff_not_everyone_supports this). reflexivity.
  - apply (warning_iff_not_everyone_supports this).
Defined.

(** C9: when the description has at most 100 code units and [expand] is
    false, the region renders the whole description, and the "read more"
    element is rendered after it all the same, although the expanded region
    shows the very same text. *)
Theorem short_description_keeps_read_more (this : Component) :
  let description := t (props this) `"dialog.e2eeDescription" in
  let expanded := {| props := props this;
                     state := {| enabled := enabled (state this); expand := true |} |} in
  expand (state this) = false ->
  (JS.length description <= 100)%Z ->
  exists region affordance region',
    descriptionRegion (render this) = Some region
    /\ renderedChildren region = [NText description; affordance]
    /\ readMore (render this) = Some affordance
    /\ descriptionRegion (render expanded) = Some region'
    /\ renderedChildren region' = [NText description].
Proof.
  intros description expanded Hex Hlen.
  do 3 eexists.
  split; [apply descriptionRegion_render|].
  rewrite readMore_render, Hex.
  split; [|split; [reflexivity|]].
  - simpl. fold description. rewrite (substring_short _ Hlen). reflexivity.
  - split; [apply descriptionRegion_render|]. reflexivity.
Qed.

Lemma short_description_keeps_read_more_witness :
  let this := {| props := {| _enabled := false; _everyoneSupportE2EE := true; t := terse |};
                 state := {| enabled := false; expand := false |} |} in
  exists region affordance region',
    descriptionRegion (render this) = Some region
    /\ renderedChildren region = [NText `"Encrypts the call."; affordance]
    /\ readMore (render this) = Some affordance
    /\ descriptionRegion
         (render {| props := props this;
                    state := {| enabled := false; expand := true |} |}) = Some region'
    /\ renderedChildren region' = [NText `"Encrypts the call."].
Proof.
  intros this.
  apply (short_description_keeps_read_more this).
  - reflexivity.
  - vm_compute. discriminate.
Defined.

(** C10: [render] depends on nothing but [_everyoneSupportE2EE], the
    translations of the four keys it asks for, and the local [enabled] and
    [expand]: two instances that agree on these render the same tree
    (whatever their [_enabled] props and the rest of their translations). *)
Theorem render_deterministic (this1 this2 : Component) :
  _everyoneSupportE2EE (props this1) = _everyoneSupportE2EE (props this2) ->
  (forall k, In k [ `"dialog.e2eeDescription"; `"dialog.readMore";
                    `"dialog.e2eeWarning"; `"dialog.e2eeLabel" ] ->
             t (props this1) k = t (props this2) k) ->
  enabled (state this1) = enabled (state this2) ->
  expand (state this1) = expand (state this2) ->
  render this1 = render this2.
Proof.
  intros Hev Ht Hen Hex. unfold render.
  rewrite Hev, Hen, Hex.
  rewrite !(Ht _) by (simpl; tauto).
  reflexivity.
Qed.

Lemma render_deterministic_witness :
  render {| props := {| _enabled := false; _everyoneSupportE2EE := false; t := english |};
            state := {| enabled := true; expand := false |} |}
  = render {| props := {| _enabled := true; _everyoneSupportE2EE := false;
                          t := fun k => if JS.strict_eq k `"dialog.cancel"
                                        then `"Cancel" else english k |};
              state := {| enabled := true; expand := false |} |}.
Proof.
  apply render_deterministic; try reflexivity.
  intros k Hk. simpl in Hk.
  destruct Hk as [<-|[<-|[<-|[<-|[]]]]]; reflexivity.
Defined.

(** ** Render passes *)

Lemma derived_state (p : Props) (s : State) :
  React.applyDerivedStateFromProps p s
  = {| enabled := _enabled p; expand := expand s |}.
Proof.
  destruct s as [en ex].
  unfold React.applyDerivedStateFromProps, getDerivedStateFromProps; simpl.
  destruct (_enabled p), en; reflexivity.
Qed.

Lemma renderPass_instance (p : Props) (s : State) (out : list Effect) :
  React.instance (React.renderPass p s out)
  = {| props := p; state := {| enabled := _enabled p; expand := expand s |} |}.
Proof. unfold React.renderPass; simpl. now rewrite derived_state. Qed.

Lemma renderPass_output (p : Props) (s : State) (out : list Effect) :
  React.output (React.renderPass p s out)
  = render (React.instance (React.renderPass p s out)).
Proof. reflexivity. Qed.

Lemma step_fire (cb : Callback) (e : EventObject) (r : React.Rendered) :
  React.step (React.Fire cb e) r
  = let this := React.instance r in
    let log := effectsOf (bound cb e) this in
    match React.pending log with
    | [] => {| React.instance := this; React.emitted := React.external log;
               React.output := React.output r |}
    | queue =>
        React.renderPass (props this)
          (React.processUpdateQueue (state this) queue) (React.external log)
    end.
Proof. reflexivity. Qed.

(** What a step leaves, callback by callback. *)
Lemma step_onExpand (e : EventObject) (r : React.Rendered) :
  React.step (React.Fire cb_onExpand e) r
  = React.renderPass (props (React.instance r))
      {| enabled := enabled (state (React.instance r)); expand := true |} [].
Proof. reflexivity. Qed.

Lemma step_onToggle (e : EventObject) (r : React.Rendered) :
  React.step (React.Fire cb_onToggle e) r
  = React.renderPass (props (React.instance r))
      {| enabled := negb (enabled (state (React.instance r)));
         expand := expand (state (React.instance r)) |}
      [ SendAnalytics
          (createE2EEEvent
             (`"enabled." ++ JS.String (negb (enabled (state (React.instance r))))));
        Dispatch (toggleE2EE (negb (enabled (state (React.instance r))))) ].
Proof. reflexivity. Qed.

Lemma step_onExpandKeyPress (e : EventObject) (r : React.Rendered) :
  React.step (React.Fire cb_onExpandKeyPress e) r
  = if JS.strict_eq (key e) `" " || JS.strict_eq (key e) `"Enter"
    then React.renderPass (props (React.instance r))
           {| enabled := enabled (state (React.instance r)); expand := true |}
           [PreventDefault e]
    else {| React.instance := React.instance r; React.emitted := [];
            React.output := React.output r |}.
Proof.
  rewrite step_fire. cbn [bound]. cbv zeta. rewrite onExpandKeyPress_effects.
  destruct (JS.strict_eq (key e) `" " || JS.strict_eq (key e) `"Enter");
    reflexivity.
Qed.

Lemma step_output (ev : React.Event) (r : React.Rendered) :
  React.output r = render (React.instance r) ->
  React.output (React.step ev r) = render (React.instance (React.step ev r)).
Proof.
  intros H. destruct ev as [next|[] e]; try reflexivity.
  rewrite step_onExpandKeyPress.
  destruct (JS.strict_eq (key e) `" " || JS.strict_eq (key e) `"Enter");
    [reflexivity | exact H].
Qed.

Lemma step_props (ev : React.Event) (r : React.Rendered) :
  _enabled (props (React.instance (React.step ev r)))
  = lastExternal (_enabled (props (React.instance r))) [ev].
Proof.
  destruct ev as [next|[] e]; try reflexivity.
  rewrite step_onExpandKeyPress.
  destruct (JS.strict_eq (key e) `" " || JS.strict_eq (key e) `"Enter");
    reflexivity.
Qed.

Lemma step_settled (ev : React.Event) (r : React.Rendered) :
  enabled (state (React.instance r)) = _enabled (props (React.instance r)) ->
  enabled (state (React.instance (React.step ev r)))
  = _enabled (props (React.instance (React.step ev r))).
Proof.
  intros H. destruct ev as [next|[] e];
    rewrite ?step_onExpand, ?step_onToggle, ?step_onExpandKeyPress;
    unfold React.step;
    try destruct (JS.strict_eq (key e) `" " || JS.strict_eq (key e) `"Enter");
    rewrite ?renderPass_instance; auto.
Qed.

Lemma step_expand (ev : React.Event) (r : React.Rendered) :
  expand (state (React.instance (React.step ev r)))
  = expand (state (React.instance r)) || expands ev.
Proof.
  destruct ev as [next|[] e];
    rewrite ?step_onExpand, ?step_onToggle, ?step_onExpandKeyPress;
    unfold React.step; cbn [expands];
    try destruct (JS.strict_eq (key e) `" " || JS.strict_eq (key e) `"Enter");
    rewrite ?renderPass_instance; simpl;
    auto using orb_true_r, orb_false_r with bool.
Qed.

Lemma run_expand (evs : list React.Event) (r : React.Rendered) :
  expand (state (React.instance (React.run evs r)))
  = expand (state (React.instance r)) || existsb expands evs.
Proof.
  revert r; induction evs as [|ev evs IH]; intros r; simpl.
  - now rewrite orb_false_r.
  - now rewrite IH, step_expand, orb_assoc.
Qed.

Lemma run_switch (evs : list React.Event) (r : React.Rendered) :
  React.output r = render (React.instance r) ->
  enabled (state (React.instance r)) = _enabled (props (React.instance r)) ->
  let r' := React.run evs r in
  React.output r' = render (React.instance r')
  /\ enabled (state (React.instance r'))
     = lastExternal (_enabled (props (React.instance r))) evs.
Proof.
  revert r; induction evs as [|ev evs IH]; intros r Hout Hen; simpl.
  - auto.
  - destruct (IH (React.step ev r)
                (step_output _ _ Hout) (step_settled _ _ Hen)) as [H1 H2].
    split; [exact H1|]. rewrite H2, step_props.
    destruct ev; reflexivity.
Qed.

(** A second [_onExpand] in a row leaves what the first left. *)
Lemma onExpand_again (e : EventObject) (r : React.Rendered) :
  React.step (React.Fire cb_onExpand e) (React.step (React.Fire cb_onExpand e) r)
  = React.step (React.Fire cb_onExpand e) r.
Proof.
  rewrite !step_onExpand, renderPass_instance.
  unfold React.renderPass. cbn [props state enabled].
  now rewrite !derived_state.
Qed.

(** C4: a key press whose key is " " or "Enter" calls [preventDefault] on the
    event and then expands ([expand] is true after it); any other key leaves
    the log empty: no [preventDefault], no state update, and the instance and
    the tree stay as they were. *)
Theorem onExpandKeyPress_space_or_enter (e : EventObject) (r : React.Rendered) :
  let this := React.instance r in
  let r' := React.step (React.Fire cb_onExpandKeyPress e) r in
  (key e = `" " \/ key e = `"Enter" ->
   effectsOf (_onExpandKeyPress e) this
   = PreventDefault e :: effectsOf _onExpand this
   /\ React.emitted r' = [PreventDefault e]
   /\ expand (state (React.instance r')) = true)
  /\ (key e <> `" " -> key e <> `"Enter" ->
      effectsOf (_onExpandKeyPress e) this = []
      /\ r' = {| React.instance := this; React.emitted := [];
                 React.output := React.output r |}).
Proof.
  intros this r'. subst r'.
  rewrite step_onExpandKeyPress, onExpandKeyPress_effects. split.
  - intros Hkey.
    assert (E : JS.strict_eq (key e) `" " || JS.strict_eq (key e) `"Enter" = true).
    { apply orb_true_iff. destruct Hkey as [H|H]; [left|right];
        now apply strict_eq_true. }
    rewrite E. split; [reflexivity|]. split; [reflexivity|].
    now rewrite renderPass_instance.
  - intros Hsp Hen.
    assert (E : JS.strict_eq (key e) `" " || JS.strict_eq (key e) `"Enter" = false).
    { apply orb_false_iff. split; now apply strict_eq_false. }
    rewrite E. split; reflexivity.
Qed.

Lemma onExpandKeyPress_space_or_enter_witness :
  let r := React.mount propsOff in
  let this := React.instance r in
  let fire e := React.step (React.Fire cb_onExpandKeyPress e) r in
  (effectsOf (_onExpandKeyPress pressEnter) this
   = PreventDefault pressEnter :: effectsOf _onExpand this
   /\ React.emitted (fire pressEnter) = [PreventDefault pressEnter]
   /\ expand (state (React.instance (fire pressEnter))) = true)
  /\ (effectsOf (_onExpandKeyPress pressSpace) this
      = PreventDefault pressSpace :: effectsOf _onExpand this
      /\ React.emitted (fire pressSpace) = [PreventDefault pressSpace]
      /\ expand (state (React.instance (fire pressSpace))) = true)
  /\ (effectsOf (_onExpandKeyPress pressTab) this = []
      /\ fire pressTab = {| React.instance := this; React.emitted := [];
                            React.output := React.output r |}).
Proof.
  intros r this fire. split; [|split].
  - apply (onExpandKeyPress_space_or_enter pressEnter r). right. reflexivity.
  - apply (onExpandKeyPress_space_or_enter pressSpace r). left. reflexivity.
  - apply (onExpandKeyPress_space_or_enter pressTab r); vm_compute; discriminate.
Defined.

(** C5, as the code has it: after any run of external prop updates and
    callbacks from mount, the switch displays the most recent externally
    supplied [enabled] value, also on the render pass that follows a local
    toggle (the derivation step runs before that render as before any other
    and overwrites the toggled value); what it displays is the local [enabled]
    state the pass leaves. *)
Theorem switch_shows_external_value (p : Props) (evs : list React.Event) :
  let r := React.run evs (React.mount p) in
  switchValue (React.output r) = Some (lastExternal (_enabled p) evs)
  /\ switchValue (React.output r) = Some (enabled (state (React.instance r))).
Proof.
  intros r.
  destruct (run_switch evs (React.mount p)) as [Hout Hen].
  - apply renderPass_output.
  - unfold React.mount. now rewrite renderPass_instance.
  - fold r in Hout, Hen. rewrite Hout, switchValue_render. split; [|reflexivity].
    rewrite Hen. unfold React.mount. now rewrite renderPass_instance.
Qed.

(** C5, as the specification words it, fails: mounted with the external value
    [false] and toggled once, with no external update since, the component
    has sent "enabled.true" and dispatched [true], and the switch displays
    [false], where the specification expects the toggled value [true]. *)
Lemma toggled_value_is_not_displayed :
  let r := React.run [React.Fire cb_onToggle click] (React.mount propsOff) in
  React.emitted r = [ SendAnalytics (createE2EEEvent `"enabled.true");
                      Dispatch (toggleE2EE true) ]
  /\ switchValue (React.output r) = Some false
  /\ specSwitchValue (_enabled propsOff) [React.Fire cb_onToggle click] = true
  /\ switchValue (React.output r)
     <> Some (specSwitchValue (_enabled propsOff) [React.Fire cb_onToggle click]).
Proof.
  intros r. repeat split; try reflexivity. vm_compute. discriminate.
Qed.

(** C7: [expand] is false in the constructor's state and after mount; a call
    of [_onExpand] makes it true; further calls after the first change
    nothing (same instance, same tree, nothing emitted); and once true it
    stays true through any run of prop updates, toggles, key presses and
    expansions. *)
Theorem expand_is_monotone :
  (forall p, expand (constructor p) = false
             /\ expand (state (React.instance (React.mount p))) = false)
  /\ (forall r e,
        expand (state (React.instance (React.step (React.Fire cb_onExpand e) r)))
        = true)
  /\ (forall r e n,
        React.run (repeat (React.Fire cb_onExpand e) n)
          (React.step (React.Fire cb_onExpand e) r)
        = React.step (React.Fire cb_onExpand e) r)
  /\ (forall evs r,
        expand (state (React.instance r)) = true ->
        expand (state (React.instance (React.run evs r))) = true).
Proof.
  split; [|split; [|split]].
  - intros p. split; [reflexivity|].
    unfold React.mount. now rewrite renderPass_instance.
  - intros r e. rewrite step_expand. apply orb_true_r.
  - intros r e n. induction n as [|n IH]; [reflexivity|].
    cbn [repeat React.run]. now rewrite onExpand_again.
  - intros evs r H. now rewrite run_expand, H.
Qed.

Lemma expand_is_monotone_witness :
  let r := React.run [React.Fire cb_onExpand click] (React.mount propsOff) in
  let evs := [ React.Fire cb_onToggle click; React.PropsUpdate propsOn;
               React.Fire cb_onExpandKeyPress pressTab; React.PropsUpdate propsOff;
               React.Fire cb_onExpand click ] in
  expand (state (React.instance r)) = true
  /\ expand (state (React.instance (React.run evs r))) = true.
Proof.
  intros r evs. split; [reflexivity|].
  apply (proj2 (proj2 (proj2 expand_is_monotone)) evs r). reflexivity.
Defined.

(** C1, as the code has it: [_onToggle] computes the negation of the local
    [enabled], then, in this order, queues with [setState] the update of
    [enabled] to the new value, sends one analytics event whose payload is
    "enabled." followed by the new value as a string, and dispatches one
    [toggleE2EE] action carrying the new value.  The queued update does not
    survive by itself: the derivation step of the render pass it causes sets
    the local [enabled] to the external [_enabled], so after the toggle the
    local [enabled] is the new value exactly when the props supply it, and
    [expand] and the props are as before.  From [false] the event and the
    action carry [true] ("enabled.true"), from [true] they carry [false]
    ("enabled.false"). *)
Theorem onToggle_sends_and_derivation_decides
  (e : EventObject) (r : React.Rendered) :
  let this := React.instance r in
  let newValue := negb (enabled (state this)) in
  let r' := React.step (React.Fire cb_onToggle e) r in
  effectsOf _onToggle this
  = [ SetState {| set_enabled := Some newValue; set_expand := None |};
      SendAnalytics (createE2EEEvent (`"enabled." ++ JS.String newValue));
      Dispatch (toggleE2EE newValue) ]
  /\ React.emitted r'
     = [ SendAnalytics (createE2EEEvent (`"enabled." ++ JS.String newValue));
         Dispatch (toggleE2EE newValue) ]
  /\ React.instance r'
     = {| props := props this;
          state := {| enabled := _enabled (props this);
                      expand := expand (state this) |} |}
  /\ (enabled (state (React.instance r')) = newValue
      <-> _enabled (props this) = newValue)
  /\ (enabled (state this) = false ->
      React.emitted r' = [ SendAnalytics (createE2EEEvent `"enabled.true");
                           Dispatch (toggleE2EE true) ])
  /\ (enabled (state this) = true ->
      React.emitted r' = [ SendAnalytics (createE2EEEvent `"enabled.false");
                           Dispatch (toggleE2EE false) ]).
Proof.
  intros this newValue r'. subst r'.
  rewrite step_onToggle, renderPass_instance, onToggle_effects.
  fold this. fold newValue. cbn [React.renderPass React.emitted expand state enabled].
  split; [reflexivity|]. split; [reflexivity|]. split; [reflexivity|].
  split; [reflexivity|].
  subst newValue. split; intros ->; reflexivity.
Qed.

Lemma onToggle_sends_and_derivation_decides_witness :
  let off := React.mount propsOff in
  let on := React.mount propsOn in
  React.emitted (React.step (React.Fire cb_onToggle click) off)
  = [ SendAnalytics (createE2EEEvent `"enabled.true"); Dispatch (toggleE2EE true) ]
  /\ React.emitted (React.step (React.Fire cb_onToggle click) on)
     = [ SendAnalytics (createE2EEEvent `"enabled.false"); Dispatch (toggleE2EE false) ].
Proof.
  intros off on. split.
  - apply (onToggle_sends_and_derivation_decides click off). reflexivity.
  - apply (onToggle_sends_and_derivation_decides click on). reflexivity.
Defined.

(** C1, as the specification words it, fails: mounted with the external value
    [false], the local [enabled] is [false]; one toggle sends "enabled.true"
    and dispatches [true], and the local [enabled] after it is still [false],
    not the new value [true]; so a second toggle sends [true] again, not the
    symmetric [false]. *)
Lemma toggle_does_not_keep_new_value :
  let r := React.mount propsOff in
  let r' := React.step (React.Fire cb_onToggle click) r in
  let r'' := React.step (React.Fire cb_onToggle click) r' in
  enabled (state (React.instance r)) = false
  /\ React.emitted r' = [ SendAnalytics (createE2EEEvent `"enabled.true");
                          Dispatch (toggleE2EE true) ]
  /\ enabled (state (React.instance r')) = false
  /\ enabled (state (React.instance r')) <> negb (enabled (state (React.instance r)))
  /\ React.emitted r'' = [ SendAnalytics (createE2EEEvent `"enabled.true");
                           Dispatch (toggleE2EE true) ].
Proof.
  intros r r' r''.
  split; [reflexivity|]. split; [reflexivity|]. split; [reflexivity|].
  split; [|reflexivity].
  vm_compute. discriminate.
Qed.

(** * Further properties of the code *)

(** ** [mapStateToProps] and the connected component *)

(** X1: [mapStateToProps] throws a TypeError exactly when the state has no
    'features/e2ee' slice (or [null] there); with an object there it returns
    the slice's [enabled] and [everyoneSupportE2EE] under the names [_enabled]
    and [_everyoneSupportE2EE], [undefined] for one the slice does not have. *)
Theorem mapStateToProps_throws_iff_no_slice (fields : list (JS.str * Value)) :
  let slice := getOwn `"features/e2ee" fields in
  (mapStateToProps (Object fields) = TypeError
   <-> slice = Undefined \/ slice = Null)
  /\ (forall own, slice = Object own ->
      mapStateToProps (Object fields)
      = Normal (Object [ (`"_enabled", getOwn `"enabled" own);
                         (`"_everyoneSupportE2EE",
                          getOwn `"everyoneSupportE2EE" own) ])).
Proof.
  intros slice. unfold mapStateToProps. cbn [getProperty]. fold slice.
  split.
  - destruct slice; simpl; split; intros H;
      try discriminate; try reflexivity; auto;
      destruct H; discriminate.
  - intros own ->. reflexivity.
Qed.

Lemma mapStateToProps_throws_iff_no_slice_witness :
  mapStateToProps (Object [(`"features/base/conference", Object [])]) = TypeError
  /\ mapStateToProps sampleStore
     = Normal (Object [ (`"_enabled", Boolean true);
                        (`"_everyoneSupportE2EE", Boolean false) ]).
Proof.
  split.
  - apply (mapStateToProps_throws_iff_no_slice
             [(`"features/base/conference", Object [])]).
    left. reflexivity.
  - apply (proj2 (mapStateToProps_throws_iff_no_slice
                    [ (`"features/base/conference", Object [(`"locked", Boolean false)]);
                      (`"features/e2ee",
                       Object [ (`"enabled", Boolean true);
                                (`"everyoneSupportE2EE", Boolean false) ]) ])
                 [ (`"enabled", Boolean true);
                   (`"everyoneSupportE2EE", Boolean false) ]).
    reflexivity.
Defined.

(** X2: mounted on a store whose e2ee slice holds the booleans [a] for
    [enabled] and [b] for [everyoneSupportE2EE], the connected component
    starts collapsed, its switch displays [a], and it shows the warning
    exactly when [b] is false. *)
Theorem connected_mount_shows_store
  (tr : JS.str -> JS.str) (fields own : list (JS.str * Value)) (a b : bool) :
  getOwn `"features/e2ee" fields = Object own ->
  getOwn `"enabled" own = Boolean a ->
  getOwn `"everyoneSupportE2EE" own = Boolean b ->
  exists p,
    connectedProps tr (Object fields) = Some p
    /\ state (React.instance (React.mount p)) = {| enabled := a; expand := false |}
    /\ switchValue (React.output (React.mount p)) = Some a
    /\ (warning (React.output (React.mount p)) <> None <-> b = false).
Proof.
  intros Hslice Ha Hb.
  exists {| _enabled := a; _everyoneSupportE2EE := b; t := tr |}.
  split.
  - unfold connectedProps, mapStateToProps. cbn [getProperty].
    rewrite Hslice. cbn [getProperty]. rewrite Ha, Hb. reflexivity.
  - unfold React.mount. rewrite renderPass_output, renderPass_instance.
    rewrite switchValue_render, warning_render. cbn.
    split; [reflexivity|]. split; [reflexivity|].
    destruct b; split; congruence.
Qed.

Lemma connected_mount_shows_store_witness :
  exists p,
    connectedProps english sampleStore = Some p
    /\ state (React.instance (React.mount p)) = {| enabled := true; expand := false |}
    /\ switchValue (React.output (React.mount p)) = Some true
    /\ (warning (React.output (React.mount p)) <> None <-> false = false).
Proof.
  apply (connected_mount_shows_store english
           [ (`"features/base/conference", Object [(`"locked", Boolean false)]);
             (`"features/e2ee",
              Object [ (`"enabled", Boolean true);
                       (`"everyoneSupportE2EE", Boolean false) ]) ]
           [ (`"enabled", Boolean true);
             (`"everyoneSupportE2EE", Boolean false) ] true false);
    reflexivity.
Defined.

(** ** Derivation and runs *)

(** X3: one derivation reaches a fixed point: on the state it leaves,
    [getDerivedStateFromProps] with the same props returns [null], and a
    second derivation changes nothing. *)
Theorem derivation_fixed_point (p : Props) (s : State) :
  getDerivedStateFromProps p (React.applyDerivedStateFromProps p s) = None
  /\ React.applyDerivedStateFromProps p (React.applyDerivedStateFromProps p s)
     = React.applyDerivedStateFromProps p s.
Proof.
  rewrite !derived_state. split; [|reflexivity].
  unfold getDerivedStateFromProps. cbn [enabled].
  now rewrite eqb_reflx.
Qed.

Lemma run_app (evs1 evs2 : list React.Event) (r : React.Rendered) :
  React.run (evs1 ++ evs2) r = React.run evs2 (React.run evs1 r).
Proof.
  revert r; induction evs1 as [|ev evs1 IH]; intros r; simpl; auto.
Qed.

Lemma step_instance (ev : React.Event) (r : React.Rendered) :
  enabled (state (React.instance r)) = _enabled (props (React.instance r)) ->
  React.instance (React.step ev r)
  = {| props := lastProps (props (React.instance r)) [ev];
       state := {| enabled := _enabled (lastProps (props (React.instance r)) [ev]);
                   expand := expand (state (React.instance r)) || expands ev |} |}.
Proof.
  intros H. destruct r as [[p [en ex]] em out]. cbn in H. subst en.
  destruct ev as [next|[] e];
    rewrite ?step_onExpand, ?step_onToggle, ?step_onExpandKeyPress;
    unfold React.step; cbn [expands lastProps React.instance props state expand enabled];
    try destruct (JS.strict_eq (key e) `" " || JS.strict_eq (key e) `"Enter");
    rewrite ?renderPass_instance; cbn [React.instance expand];
    rewrite ?orb_true_r, ?orb_false_r; reflexivity.
Qed.

Lemma run_instance (evs : list React.Event) (r : React.Rendered) :
  enabled (state (React.instance r)) = _enabled (props (React.instance r)) ->
  React.instance (React.run evs r)
  = {| props := lastProps (props (React.instance r)) evs;
       state := {| enabled := _enabled (lastProps (props (React.instance r)) evs);
                   expand := expand (state (React.instance r))
                             || existsb expands evs |} |}.
Proof.
  revert r; induction evs as [|ev evs IH]; intros r H.
  - destruct r as [[p [en ex]] em out]. cbn in *. subst en.
    now rewrite orb_false_r.
  - cbn [React.run]. rewrite (IH _ (step_settled ev r H)).
    rewrite (step_instance ev r H). cbn [props state expand existsb].
    rewrite orb_assoc. destruct ev; reflexivity.
Qed.

Lemma mount_settled (p : Props) :
  React.instance (React.mount p)
  = {| props := p; state := {| enabled := _enabled p; expand := false |} |}.
Proof. unfold React.mount. now rewrite renderPass_instance. Qed.

(** X4: what a mounted component holds and displays after any run of prop
    updates and callbacks depends on two things only: the last props it was
    given and whether some event of the run expanded the description.  Its
    local [enabled] is that of the last props, and the tree on display is
    [render] of that instance. *)
Theorem run_depends_on_last_props_and_expansion
  (p : Props) (evs : list React.Event) :
  let r := React.run evs (React.mount p) in
  React.instance r
  = {| props := lastProps p evs;
       state := {| enabled := _enabled (lastProps p evs);
                   expand := existsb expands evs |} |}
  /\ React.output r = render (React.instance r).
Proof.
  intros r. subst r. split.
  - rewrite run_instance; rewrite mount_settled; reflexivity.
  - apply run_switch.
    + apply renderPass_output.
    + now rewrite mount_settled.
Qed.

(** X5: a toggle after any run from mount sends, in this order, the analytics
    event and the [toggleE2EE] action for the negation of the most recent
    externally supplied [enabled] value, whatever toggles came before; so a
    second toggle with no prop update in between sends the same two again. *)
Theorem toggle_sends_negated_external_value
  (p : Props) (evs : list React.Event) (e e' : EventObject) :
  let b := negb (lastExternal (_enabled p) evs) in
  React.emitted (React.run (evs ++ [React.Fire cb_onToggle e]) (React.mount p))
  = [ SendAnalytics (createE2EEEvent (`"enabled." ++ JS.String b));
      Dispatch (toggleE2EE b) ]
  /\ React.emitted
       (React.run (evs ++ [React.Fire cb_onToggle e; React.Fire cb_onToggle e'])
          (React.mount p))
     = React.emitted
         (React.run (evs ++ [React.Fire cb_onToggle e]) (React.mount p)).
Proof.
  intros b.
  assert (Hm : enabled (state (React.instance (React.mount p)))
               = _enabled (props (React.instance (React.mount p))))
    by now rewrite mount_settled.
  assert (H1 : forall evs0,
             enabled (state (React.instance (React.run evs0 (React.mount p))))
             = lastExternal (_enabled p) evs0).
  { intros evs0.
    destruct (run_switch evs0 (React.mount p) (renderPass_output _ _ _) Hm)
      as [_ H].
    rewrite H. now rewrite mount_settled. }
  assert (H2 : forall evs0 e0,
             React.emitted
               (React.run (evs0 ++ [React.Fire cb_onToggle e0]) (React.mount p))
             = [ SendAnalytics
                   (createE2EEEvent
                      (`"enabled." ++ JS.String (negb (lastExternal (_enabled p) evs0))));
                 Dispatch (toggleE2EE (negb (lastExternal (_enabled p) evs0))) ]).
  { intros evs0 e0. rewrite run_app. cbn [React.run].
    rewrite step_onToggle. unfold React.renderPass. cbn [React.emitted].
    now rewrite H1. }
  split; [apply H2|].
  rewrite H2.
  change (evs ++ [React.Fire cb_onToggle e; React.Fire cb_onToggle e'])
    with (evs ++ [React.Fire cb_onToggle e] ++ [React.Fire cb_onToggle e']).
  rewrite app_assoc, H2. subst b.
  replace (lastExternal (_enabled p) (evs ++ [React.Fire cb_onToggle e]))
    with (lastExternal (_enabled p) evs); [reflexivity|].
  generalize (_enabled p). induction evs as [|[next|cb e0] evs IH]; intros x;
    simpl; auto.
Qed.

(** X6: whatever leaves the component during an event is either the
    [preventDefault] of a " " or "Enter" key press, alone, or the analytics
    event and the [toggleE2EE] action of a toggle, together and for the same
    value, the negation of the local [enabled]; prop updates, clicks on "read
    more" and other keys send nothing, and no [setState] leaks out. *)
Theorem only_key_press_and_toggle_emit
  (ev : React.Event) (r : React.Rendered) (x : Effect) :
  In x (React.emitted (React.step ev r)) ->
  (exists e, ev = React.Fire cb_onExpandKeyPress e
             /\ (key e = `" " \/ key e = `"Enter")
             /\ React.emitted (React.step ev r) = [PreventDefault e])
  \/ (exists e, ev = React.Fire cb_onToggle e
                /\ let b := negb (enabled (state (React.instance r))) in
                   React.emitted (React.step ev r)
                   = [ SendAnalytics (createE2EEEvent (`"enabled." ++ JS.String b));
                       Dispatch (toggleE2EE b) ]).
Proof.
  destruct ev as [next|[] e].
  - intros [].
  - intros [].
  - rewrite step_onExpandKeyPress.
    destruct (JS.strict_eq (key e) `" " || JS.strict_eq (key e) `"Enter") eqn:E.
    + intros _. left. exists e. split; [reflexivity|]. split; [|reflexivity].
      apply orb_true_iff in E. destruct E as [E|E]; [left|right];
        now apply strict_eq_true.
    + intros [].
  - intros _. right. exists e. split; reflexivity.
Qed.

Lemma only_key_press_and_toggle_emit_witness :
  let r := React.mount propsOff in
  (exists e, React.Fire cb_onToggle click = React.Fire cb_onExpandKeyPress e
             /\ (key e = `" " \/ key e = `"Enter")
             /\ React.emitted (React.step (React.Fire cb_onToggle click) r)
                = [PreventDefault e])
  \/ (exists e, React.Fire cb_onToggle click = React.Fire cb_onToggle e
                /\ let b := negb (enabled (state (React.instance r))) in
                   React.emitted (React.step (React.Fire cb_onToggle click) r)
                   = [ SendAnalytics (createE2EEEvent (`"enabled." ++ JS.String b));
                       Dispatch (toggleE2EE b) ]).
Proof.
  intros r.
  apply (only_key_press_and_toggle_emit (React.Fire cb_onToggle click) r
           (Dispatch (toggleE2EE true))).
  simpl. right. left. reflexivity.
Defined.

(** ** The description and the callbacks on display *)

(** X7: while collapsed, the text on display is a prefix of the description,
    of [min(100, length)] code units, and it is the whole description exactly
    when the description has at most 100 code units: a longer description is
    always cut. *)
Theorem collapsed_text_is_prefix (this : Component) :
  let description := t (props this) `"dialog.e2eeDescription" in
  expand (state this) = false ->
  exists region shown affordance,
    descriptionRegion (render this) = Some region
    /\ renderedChildren region = [NText shown; affordance]
    /\ (exists rest, description = shown ++ rest)
    /\ JS.length shown = Z.min 100 (JS.length description)
    /\ (shown = description <-> (JS.length description <= 100)%Z).
Proof.
  intros description Hex.
  eexists. exists (firstn 100 description). eexists.
  split; [apply descriptionRegion_render|].
  rewrite Hex. cbn [js_and negb renderedChildren filter isFalse].
  fold description. rewrite substring_0_100.
  split; [reflexivity|].
  assert (Hlen : JS.length (firstn 100 description)
                 = Z.min 100 (JS.length description)).
  { unfold JS.length. rewrite length_firstn. lia. }
  split; [|split].
  - exists (skipn 100 description). symmetry. apply firstn_skipn.
  - exact Hlen.
  - split.
    + intros H. rewrite H in Hlen. lia.
    + intros H. apply firstn_all2. unfold JS.length in H. lia.
Qed.

Lemma collapsed_text_is_prefix_witness :
  let this := {| props := propsOff; state := {| enabled := false; expand := false |} |} in
  exists region shown affordance,
    descriptionRegion (render this) = Some region
    /\ renderedChildren region = [NText shown; affordance]
    /\ (exists rest, english `"dialog.e2eeDescription" = shown ++ rest)
    /\ JS.length shown = Z.min 100 (JS.length (english `"dialog.e2eeDescription"))
    /\ (shown = english `"dialog.e2eeDescription"
        <-> (JS.length (english `"dialog.e2eeDescription") <= 100)%Z).
Proof.
  intros this. apply (collapsed_text_is_prefix this). reflexivity.
Defined.

(** X8: a " " or "Enter" key press on "read more" leaves the same instance
    and the same tree as a click on it; the two differ only in the
    [preventDefault] the key press calls. *)
Theorem key_press_expands_like_click (e e' : EventObject) (r : React.Rendered) :
  key e = `" " \/ key e = `"Enter" ->
  let pressed := React.step (React.Fire cb_onExpandKeyPress e) r in
  let clicked := React.step (React.Fire cb_onExpand e') r in
  React.instance pressed = React.instance clicked
  /\ React.output pressed = React.output clicked
  /\ React.emitted pressed = PreventDefault e :: React.emitted clicked.
Proof.
  intros Hkey pressed clicked. subst pressed clicked.
  rewrite step_onExpandKeyPress, step_onExpand.
  assert (E : JS.strict_eq (key e) `" " || JS.strict_eq (key e) `"Enter" = true).
  { apply orb_true_iff. destruct Hkey as [H|H]; [left|right];
      now apply strict_eq_true. }
  rewrite E. split; [reflexivity|]. split; reflexivity.
Qed.

Lemma key_press_expands_like_click_witness :
  let r := React.mount propsOn in
  React.instance (React.step (React.Fire cb_onExpandKeyPress pressSpace) r)
  = React.instance (React.step (React.Fire cb_onExpand click) r)
  /\ React.output (React.step (React.Fire cb_onExpandKeyPress pressSpace) r)
     = React.output (React.step (React.Fire cb_onExpand click) r)
  /\ React.emitted (React.step (React.Fire cb_onExpandKeyPress pressSpace) r)
     = PreventDefault pressSpace
       :: React.emitted (React.step (React.Fire cb_onExpand click) r).
Proof.
  intros r.
  apply (key_press_expands_like_click pressSpace click r).
  left. reflexivity.
Defined.

Lemma callbacks_render (this : Component) :
  callbacks (render this)
  = if expand (state this) then [cb_onToggle]
    else [cb_onExpand; cb_onExpandKeyPress; cb_onToggle].
Proof.
  destruct this as [p [en ex]].
  destruct ex, (_everyoneSupportE2EE p) eqn:E;
    unfold render; simpl; rewrite ?E; reflexivity.
Qed.

(** X9: after any run from mount the tree always offers the toggle, and it
    offers the two expand callbacks exactly as long as no event of the run has
    expanded the description: once expanded, nothing on display can call
    [_onExpand] again. *)
Theorem expand_offered_until_expanded (p : Props) (evs : list React.Event) :
  let offered := callbacks (React.output (React.run evs (React.mount p))) in
  In cb_onToggle offered
  /\ (In cb_onExpand offered <-> existsb expands evs = false)
  /\ (In cb_onExpandKeyPress offered <-> existsb expands evs = false).
Proof.
  intros offered. subst offered.
  destruct (run_switch evs (React.mount p)) as [Hout _].
  - apply renderPass_output.
  - now rewrite mount_settled.
  - rewrite Hout, callbacks_render, run_expand, mount_settled.
    cbn [state expand orb].
    destruct (existsb expands evs); simpl; intuition congruence.
Qed.

Lemma expand_offered_until_expanded_witness :
  let evs := [React.Fire cb_onToggle click;
              React.Fire cb_onExpandKeyPress pressTab] in
  In cb_onExpand (callbacks (React.output (React.run evs (React.mount propsOff)))).
Proof.
  intros evs.
  apply (expand_offered_until_expanded propsOff evs). reflexivity.
Defined.
